(** * PovertyLine front end: the session store and the route guard

    A shallow embedding of

      - [frontend/src/features/auth/authSlice.js]: the helper [setAuthToken],
        the four thunks [register], [login], [checkAuthStatus], [logout], the
        initial state and the reducer of the [auth] slice;
      - [frontend/src/components/common/ProtectedRoute.js]: the route guard;
      - [frontend/src/App.js]: the loading gate and the route table;
      - [frontend/src/features/ui/uiSlice.js]: the reducer of the [ui] slice;
      - the link list of the header, the timer selection of the alert
        manager and the submit handlers of the login and signup pages.

    JavaScript values are a small inductive type; the thunks are written in a
    state-and-exception monad over the two places the token lives in outside
    the Redux store (localStorage and the axios default header) and a log of
    the requests sent.  The reply of the server to the one request a thunk
    sends is an input of the thunk. *)

From Stdlib Require Import String Ascii List Bool ZArith Lia DecimalString.
Import ListNotations.
Local Open Scope string_scope.
Set Warnings "-register-all".

(** ** JavaScript values *)

Module Js.

(** The values that flow through the slice: JSON scalars and objects, plus
    [undefined].  [VNum n] stands for the integer [n] of magnitude at most
    2^53, the integers JavaScript numbers hold exactly and prints in plain
    decimal; other numbers are outside the model.  Arrays are not needed by
    any field the slice reads. *)
Inductive value : Type :=
| VUndefined
| VNull
| VBool (b : bool)
| VNum (n : Z)
| VStr (s : string)
| VObj (fields : list (string * value)).

(** ToBoolean. *)
Definition truthy (v : value) : bool :=
  match v with
  | VUndefined | VNull => false
  | VBool b => b
  | VNum n => negb (n =? 0)%Z
  | VStr s => negb (s =? "")
  | VObj _ => true
  end.

(** ToString, as used by a template literal and by [localStorage.setItem];
    for numbers, the plain decimal of the integers of the model. *)
Definition to_string (v : value) : string :=
  match v with
  | VUndefined => "undefined"
  | VNull => "null"
  | VBool true => "true"
  | VBool false => "false"
  | VNum n => NilZero.string_of_int (Z.to_int n)
  | VStr s => s
  | VObj _ => "[object Object]"
  end.

(** Own property lookup in an object given as its list of fields. *)
Fixpoint assoc (k : string) (fields : list (string * value)) : option value :=
  match fields with
  | [] => None
  | (k', v) :: rest => if k' =? k then Some v else assoc k rest
  end.

(** Normal or abrupt (throw) completion of an expression. *)
Inductive completion (A : Type) : Type :=
| Normal (a : A)
| Throw (e : value).
Arguments Normal {A} a.
Arguments Throw {A} e.

(** The error object of a failed property read on [null] or [undefined]. *)
Definition type_error : value := VObj [("name", VStr "TypeError")].

(** [v.k]: throws on [null] and [undefined]; a missing property, and any
    property of a primitive that the slice asks for, is [undefined]. *)
Definition member (v : value) (k : string) : completion value :=
  match v with
  | VUndefined | VNull => Throw type_error
  | VObj fields =>
      Normal match assoc k fields with Some x => x | None => VUndefined end
  | _ => Normal VUndefined
  end.

(** [v?.k]. *)
Definition opt_member (v : value) (k : string) : value :=
  match member v k with
  | Normal x => x
  | Throw _ => VUndefined
  end.

(** [a || b]. *)
Definition or_else (a b : value) : value := if truthy a then a else b.

(** Neither [null] nor [undefined]. *)
Definition present (v : value) : bool :=
  match v with
  | VUndefined | VNull => false
  | _ => true
  end.

(** A value read back from [localStorage.getItem]. *)
Definition of_item (o : option string) : value :=
  match o with
  | Some s => VStr s
  | None => VNull
  end.

End Js.
Import Js.

(** ** What lives outside the Redux store *)

Inductive Method : Type := GET | POST.

(** A request as axios sends it: the [Authorization] default header is
    attached at the time of the call. *)
Record Request : Type := {
  req_method : Method;
  req_url : string;
  req_body : value;
  req_authorization : option string
}.

Record Env : Type := {
  (** [localStorage] entry ['token'] *)
  storage_token : option string;
  (** [axios.defaults.headers.common['Authorization']] *)
  auth_header : option string;
  (** requests sent so far, oldest first *)
  requests : list Request
}.

(** How the server answers the request of a thunk: the promise resolves with a
    response whose body is [data], or it is rejected with an error object. *)
Inductive Reply : Type :=
| Resolves (data : value)
| Rejects (err : list (string * value)).

(** ** The monad of the thunk bodies: state [Env], exceptions *)

Definition Eff (A : Type) : Type := Env -> Env * completion A.

Definition ret {A} (a : A) : Eff A := fun e => (e, Normal a).

Definition bind {A B} (m : Eff A) (k : A -> Eff B) : Eff B :=
  fun e =>
    match m e with
    | (e', Normal a) => k a e'
    | (e', Throw x) => (e', Throw x)
    end.

Definition lift {A} (c : completion A) : Eff A := fun e => (e, c).

(** [try { body } catch (error) { handler }]. *)
Definition try_catch {A} (body : Eff A) (handler : value -> Eff A) : Eff A :=
  fun e =>
    match body e with
    | (e', Normal a) => (e', Normal a)
    | (e', Throw x) => handler x e'
    end.

Declare Scope eff_scope.
Delimit Scope eff_scope with eff.
Notation "x <- m ;; k" := (bind m (fun x => k))
  (at level 61, m at next level, right associativity) : eff_scope.
Notation "m ;;; k" := (bind m (fun _ => k))
  (at level 61, right associativity) : eff_scope.

Definition getItem : Eff value :=
  fun e => (e, Normal (of_item (storage_token e))).

(** [axios.get] / [axios.post]: the request is logged with the header it
    carries, then the reply comes back. *)
Definition axios (m : Method) (url : string) (body : value) (reply : Reply)
  : Eff value :=
  fun e =>
    let sent := {| req_method := m; req_url := url; req_body := body;
                   req_authorization := auth_header e |} in
    let e' := {| storage_token := storage_token e;
                 auth_header := auth_header e;
                 requests := requests e ++ [sent] |} in
    match reply with
    | Resolves data => (e', Normal (VObj [("data", data)]))
    | Rejects err => (e', Throw (VObj err))
    end.

(** ** authSlice.js *)

Definition setAuthToken (token : value) : Eff unit :=
  fun e =>
    if truthy token then
      ({| storage_token := Some (to_string token);
          auth_header := Some ("Bearer " ++ to_string token);
          requests := requests e |}, Normal tt)
    else
      ({| storage_token := None;
          auth_header := None;
          requests := requests e |}, Normal tt).

(** What a payload creator hands back to [createAsyncThunk]. *)
Inductive Returned : Type :=
| Plain (v : value)
| RejectWithValue (v : value).

(** [error.response?.data?.error] *)
Definition server_error (error : value) : Eff value :=
  (response <- lift (member error "response") ;;
   ret (opt_member (opt_member response "data") "error"))%eff.

Definition rejectWith (error : value) (fallback : string) : Eff Returned :=
  (supplied <- server_error error ;;
   ret (RejectWithValue (or_else supplied (VStr fallback))))%eff.

Definition register (userData : value) (reply : Reply) : Eff Returned :=
  try_catch
    (response <- axios POST "/api/auth/register" userData reply ;;
     data <- lift (member response "data") ;;
     access_token <- lift (member data "access_token") ;;
     setAuthToken access_token ;;;
     ret (Plain data))%eff
    (fun error => rejectWith error "Registration failed").

Definition login (credentials : value) (reply : Reply) : Eff Returned :=
  try_catch
    (response <- axios POST "/api/auth/login" credentials reply ;;
     data <- lift (member response "data") ;;
     access_token <- lift (member data "access_token") ;;
     setAuthToken access_token ;;;
     ret (Plain data))%eff
    (fun error => rejectWith error "Login failed").

Definition checkAuthStatus (reply : Reply) : Eff Returned :=
  try_catch
    (token <- getItem ;;
     if negb (truthy token) then
       ret (RejectWithValue (VStr "No token found"))
     else
       setAuthToken token ;;;
       response <- axios GET "/api/auth/me" VUndefined reply ;;
       data <- lift (member response "data") ;;
       ret (Plain data))%eff
    (fun error =>
       setAuthToken VNull ;;;
       rejectWith error "Authentication failed")%eff.

Definition logout (reply : Reply) : Eff Returned :=
  try_catch
    (axios POST "/api/auth/logout" VUndefined reply ;;;
     setAuthToken VNull ;;;
     ret (Plain VNull))%eff
    (fun _ =>
       setAuthToken VNull ;;;
       ret (Plain VNull))%eff.

(** The slice state. *)
Record AuthState : Type := {
  token : value;
  isAuthenticated : bool;
  user : value;
  isLoading : bool;
  error : value
}.

Definition initialState (persisted : option string) : AuthState :=
  {| token := of_item persisted;
     isAuthenticated := false;
     user := VNull;
     isLoading := true;
     error := VNull |}.

Inductive Op : Type := OpRegister | OpLogin | OpCheckStatus | OpLogout.

Inductive Action : Type :=
| ClearError
| Pending (op : Op)
| Fulfilled (op : Op) (payload : value)
| Rejected (op : Op) (payload : value).

(** The case reducers.  A reducer that throws leaves no new state. *)
Definition reducer (state : AuthState) (action : Action)
  : completion AuthState :=
  match action with
  | ClearError =>
      Normal {| token := token state;
                isAuthenticated := isAuthenticated state;
                user := user state;
                isLoading := isLoading state;
                error := VNull |}
  | Pending OpRegister | Pending OpLogin | Pending OpCheckStatus =>
      Normal {| token := token state;
                isAuthenticated := isAuthenticated state;
                user := user state;
                isLoading := true;
                error := VNull |}
  | Fulfilled OpRegister payload | Fulfilled OpLogin payload =>
      match member payload "access_token", member payload "user" with
      | Normal t, Normal u =>
          Normal {| token := t;
                    isAuthenticated := true;
                    user := u;
                    isLoading := false;
                    error := error state |}
      | Throw x, _ | _, Throw x => Throw x
      end
  | Rejected OpRegister payload | Rejected OpLogin payload =>
      Normal {| token := token state;
                isAuthenticated := isAuthenticated state;
                user := user state;
                isLoading := false;
                error := payload |}
  | Fulfilled OpCheckStatus payload =>
      match member payload "user" with
      | Normal u =>
          Normal {| token := token state;
                    isAuthenticated := true;
                    user := u;
                    isLoading := false;
                    error := error state |}
      | Throw x => Throw x
      end
  | Rejected OpCheckStatus _ =>
      Normal {| token := VNull;
                isAuthenticated := false;
                user := VNull;
                isLoading := false;
                error := error state |}
  | Fulfilled OpLogout _ =>
      Normal {| token := VNull;
                isAuthenticated := false;
                user := VNull;
                isLoading := false;
                error := error state |}
  | Pending OpLogout | Rejected OpLogout _ => Normal state
  end.

(** ** The store and [createAsyncThunk] *)

Record System : Type := {
  auth : AuthState;
  env : Env
}.

(** [store.dispatch]: the state is replaced by what the reducer returns; when
    the reducer throws, the state stays as it was. *)
Definition dispatch (action : Action) (s : System) : System :=
  match reducer (auth s) action with
  | Normal st => {| auth := st; env := env s |}
  | Throw _ => s
  end.

(** The action a thunk dispatches when its payload creator has finished: a
    plain return value fulfils, [rejectWithValue] rejects with that value, an
    exception that escapes rejects with no payload. *)
Definition settle (op : Op) (c : completion Returned) : Action :=
  match c with
  | Normal (Plain v) => Fulfilled op v
  | Normal (RejectWithValue v) => Rejected op v
  | Throw _ => Rejected op VUndefined
  end.

Definition payloadCreator (op : Op) (arg : value) (reply : Reply)
  : Eff Returned :=
  match op with
  | OpRegister => register arg reply
  | OpLogin => login arg reply
  | OpCheckStatus => checkAuthStatus reply
  | OpLogout => logout reply
  end.

(** The action an operation ends with. *)
Definition outcome (op : Op) (arg : value) (reply : Reply) (e : Env)
  : Action :=
  settle op (snd (payloadCreator op arg reply e)).

(** One operation run to completion: [pending], the payload creator, then the
    settling action. *)
Definition run (op : Op) (arg : value) (reply : Reply) (s : System)
  : System :=
  let s1 := dispatch (Pending op) s in
  let (e', c) := payloadCreator op arg reply (env s1) in
  dispatch (settle op c) {| auth := auth s1; env := e' |}.

(** The system when the module has been loaded: the state is seeded from
    localStorage, no default header has been set and nothing was sent. *)
Definition startup (persisted : option string) : System :=
  {| auth := initialState persisted;
     env := {| storage_token := persisted;
               auth_header := None;
               requests := [] |} |}.

(** What the views do to the session, one at a time. *)
Inductive Event : Type :=
| Operation (op : Op) (arg : value) (reply : Reply)
| Dismiss.

Definition step (s : System) (ev : Event) : System :=
  match ev with
  | Operation op arg reply => run op arg reply s
  | Dismiss => dispatch ClearError s
  end.

Definition run_all (evs : list Event) (s : System) : System :=
  fold_left step evs s.

(** ** ProtectedRoute.js *)

Inductive Rendered (Node : Type) : Type :=
| RenderNull
| Navigate (to : string)
| RenderChildren (children : Node).
Arguments RenderNull {Node}.
Arguments Navigate {Node} to.
Arguments RenderChildren {Node} children.

(** [v !== s] for a string [s]. *)
Definition strict_neq_string (v : value) (s : string) : bool :=
  match v with
  | VStr t => negb (t =? s)
  | _ => true
  end.

(** [requiredRole] is an optional string prop; [None] is the prop left out. *)
Definition ProtectedRoute {Node : Type} (state : AuthState)
  (children : Node) (requiredRole : option string) : Rendered Node :=
  if isLoading state then RenderNull
  else if negb (isAuthenticated state) then Navigate "/login"
  else
    match requiredRole with
    | Some r =>
        if truthy (VStr r)
           && strict_neq_string (opt_member (user state) "role") r
        then Navigate "/"
        else RenderChildren children
    | None => RenderChildren children
    end.

(** ** The words of the specification *)

(** The four outcomes of the route guard of section 4.2. *)
Inductive Verdict : Type := Suspend | ToLogin | ToHome | Show.

(** Section 4.2, clause by clause, on the four inputs it names.  A required
    role is specified when the prop is given and is not the empty string. *)
Definition guard_spec (authenticated : bool) (role : value) (loading : bool)
  (requiredRole : option string) : Verdict :=
  if loading then Suspend
  else if negb authenticated then ToLogin
  else
    match requiredRole with
    | Some r =>
        if negb (r =? "") && negb (match role with
                                   | VStr t => t =? r
                                   | _ => false
                                   end)
        then ToHome else Show
    | None => Show
    end.

Definition render {Node : Type} (children : Node) (v : Verdict)
  : Rendered Node :=
  match v with
  | Suspend => RenderNull
  | ToLogin => Navigate "/login"
  | ToHome => Navigate "/"
  | Show => RenderChildren children
  end.

(** The header and the durable store hold the same token. *)
Definition agree (e : Env) : Prop :=
  auth_header e = option_map (fun t => "Bearer " ++ t) (storage_token e).

(** The error field the server supplied with a failed request: the [error]
    entry of the body of the response the rejection carries.  A reply that
    resolves carries none. *)
Definition supplied (reply : Reply) : value :=
  match reply with
  | Rejects err =>
      match assoc "response" err with
      | Some (VObj response) =>
          match assoc "data" response with
          | Some (VObj data) =>
              match assoc "error" data with
              | Some v => v
              | None => VUndefined
              end
          | _ => VUndefined
          end
      | _ => VUndefined
      end
  | Resolves _ => VUndefined
  end.

(** A supplied error field is a message when it is a string, or counts as
    left out. *)
Definition message_or_absent (v : value) : bool :=
  match v with
  | VStr _ => true
  | _ => negb (truthy v)
  end.

(** The operation-specific defaults of the error policy of section 4.1;
    logout has none, it does not fail. *)
Definition default_message (op : Op) : string :=
  match op with
  | OpRegister => "Registration failed"
  | OpLogin => "Login failed"
  | OpCheckStatus => "Authentication failed"
  | OpLogout => ""
  end.

(** The error policy of section 4.1 in its own words: the supplied message
    when there is one, the default otherwise, and "No token found" for a
    status check without a stored token. *)
Definition message_spec (op : Op) (stored : bool) (given : value) : string :=
  match op, stored with
  | OpCheckStatus, false => "No token found"
  | _, _ =>
      match given with
      | VStr s => if s =? "" then default_message op else s
      | _ => default_message op
      end
  end.

(** A token is stored when [localStorage] has a non-empty entry. *)
Definition has_token (e : Env) : bool := truthy (of_item (storage_token e)).

(** Successful replies carry the user record (section 6). *)
Definition carries_user (ev : Event) : bool :=
  match ev with
  | Operation OpLogout _ _ => true
  | Operation _ _ (Resolves data) => present (opt_member data "user")
  | _ => true
  end.

(** Successful signup and login replies carry the access token (section 6). *)
Definition carries_token (ev : Event) : bool :=
  match ev with
  | Operation OpRegister _ (Resolves data)
  | Operation OpLogin _ (Resolves data) =>
      present (opt_member data "access_token")
  | _ => true
  end.

(** ** Invariants *)

(** An authenticated session has a user. *)
Definition user_when_authenticated (s : System) : Prop :=
  isAuthenticated (auth s) = true -> present (user (auth s)) = true.

(** The token of the state follows the durable store closely enough: while
    the store holds a non-empty token the state has one too, and a state
    without a token is not authenticated. *)
Definition token_when_authenticated (s : System) : Prop :=
  (has_token (env s) = true -> present (token (auth s)) = true)
  /\ (present (token (auth s)) = false -> isAuthenticated (auth s) = false).

(** ** Sample data *)

Definition ann : value :=
  VObj [("id", VNum 1); ("username", VStr "ann");
        ("email", VStr "ann@x.com"); ("role", VStr "user")].

Definition root : value :=
  VObj [("id", VNum 2); ("username", VStr "root");
        ("email", VStr "root@x.com"); ("role", VStr "admin")].

Definition credentials : value :=
  VObj [("username", VStr "ann"); ("password", VStr "Abcd123!")].

(** A successful login: [{access_token, user}]. *)
Definition welcome : Reply :=
  Resolves (VObj [("access_token", VStr "eyJ0"); ("user", ann)]).

(** A 401 with a message. *)
Definition wrong_password : Reply :=
  Rejects [("message", VStr "Request failed with status code 401");
           ("response",
            VObj [("status", VNum 401);
                  ("data",
                   VObj [("error", VStr "Invalid username or password")])])].

(** The error of a request whose token the server no longer accepts. *)
Definition expired : list (string * value) :=
  [("message", VStr "Request failed with status code 401");
   ("response",
    VObj [("status", VNum 401);
          ("data", VObj [("error", VStr "Token has expired")])])].

(** An accepted login whose body has no user. *)
Definition nameless : Reply :=
  Resolves (VObj [("access_token", VStr "eyJ0")]).

(** An accepted login whose body has no token. *)
Definition tokenless : Reply :=
  Resolves (VObj [("user", ann)]).

(** A refusal whose error field is an object. *)
Definition coded_refusal : Reply :=
  Rejects [("message", VStr "Request failed with status code 422");
           ("response",
            VObj [("status", VNum 422);
                  ("data", VObj [("error", VObj [("code", VNum 7)])])])].

(** No response at all. *)
Definition network_down : Reply :=
  Rejects [("message", VStr "Network Error")].

(** ** App.js and the header *)

(** The pages the routes mount. *)
Inductive Page : Type :=
| HomePage
| LoginPage
| RegisterPage
| ResourcesPage
| ResourceDetailPage
| ProfilePage
| DashboardPage
| NotFoundPage.

(** The routes declared under the layout, in the order of the source:
    index, [login], [register], [resources], [resources/:id], [profile],
    [dashboard/*] and the catch-all. *)
Inductive Route : Type :=
| RouteIndex
| RouteLogin
| RouteRegister
| RouteResources
| RouteResourceDetail
| RouteProfile
| RouteDashboard
| RouteNotFound.

(** The [element] of each route. *)
Definition route_element (state : AuthState) (route : Route)
  : Rendered Page :=
  match route with
  | RouteIndex => RenderChildren HomePage
  | RouteLogin =>
      if negb (isAuthenticated state) then RenderChildren LoginPage
      else Navigate "/profile"
  | RouteRegister =>
      if negb (isAuthenticated state) then RenderChildren RegisterPage
      else Navigate "/profile"
  | RouteResources => RenderChildren ResourcesPage
  | RouteResourceDetail => RenderChildren ResourceDetailPage
  | RouteProfile => ProtectedRoute state ProfilePage None
  | RouteDashboard => ProtectedRoute state DashboardPage (Some "admin")
  | RouteNotFound => RenderChildren NotFoundPage
  end.

Inductive Screen : Type :=
| LoadingBox
| Routed (r : Rendered Page).

(** [App], at the route the location selects. *)
Definition App (state : AuthState) (route : Route) : Screen :=
  if isLoading state then LoadingBox
  else Routed (route_element state route).

(** The route a path without parameters selects.  These are the paths the
    application itself navigates to; paths with a parameter, paths below
    [/dashboard] and unknown paths are not resolved here. *)
Definition static_route (path : string) : option Route :=
  if path =? "/" then Some RouteIndex
  else if path =? "/login" then Some RouteLogin
  else if path =? "/register" then Some RouteRegister
  else if path =? "/resources" then Some RouteResources
  else if path =? "/profile" then Some RouteProfile
  else if path =? "/dashboard" then Some RouteDashboard
  else None.

(** [navLinks] of the header: text and path of each link. *)
Definition navLinks (state : AuthState) : list (string * string) :=
  if isAuthenticated state then
    [("Home", "/"); ("Resources", "/resources"); ("Profile", "/profile")]
    ++ (if negb (strict_neq_string (opt_member (user state) "role") "admin")
        then [("Dashboard", "/dashboard")]
        else [])
  else
    [("Home", "/"); ("Resources", "/resources"); ("Login", "/login");
     ("Register", "/register")].

(** ** uiSlice.js *)

Record Alert : Type := {
  alert_id : string;
  alert_type : value;
  alert_message : value;
  alert_autoClose : value
}.

Record UiState : Type := {
  alerts : list Alert;
  isDrawerOpen : value;
  isMobileView : value;
  theme : value
}.

(** [window.innerWidth] is read when the module is loaded. *)
Definition uiInitialState (innerWidth : Z) : UiState :=
  {| alerts := [];
     isDrawerOpen := VBool false;
     isMobileView := VBool (innerWidth <? 600)%Z;
     theme := VStr "light" |}.

(** [generateAlertId]; [now] is what [Date.now()] returns and [rnd] what
    [Math.floor(Math.random() * 1000)] returns. *)
Definition generateAlertId (now rnd : Z) : string :=
  "alert-" ++ to_string (VNum now) ++ "-" ++ to_string (VNum rnd).

Inductive UiAction : Type :=
| AddAlert (payload : value)
| RemoveAlert (payload : value)
| ClearAlerts
| ToggleDrawer
| SetDrawerOpen (payload : value)
| SetMobileView (payload : value)
| ToggleTheme
| SetTheme (payload : value).

(** A destructuring default: it replaces [undefined] only. *)
Definition default_to (v d : value) : value :=
  match v with
  | VUndefined => d
  | _ => v
  end.

(** The case reducers of the [ui] slice; [now] and [rnd] feed
    [generateAlertId]. *)
Definition uiReducer (now rnd : Z) (state : UiState) (action : UiAction)
  : completion UiState :=
  match action with
  | AddAlert payload =>
      match member payload "type", member payload "message",
            member payload "autoClose" with
      | Normal type, Normal message, Normal autoClose =>
          let newAlert :=
            {| alert_id := generateAlertId now rnd;
               alert_type := default_to type (VStr "info");
               alert_message := message;
               alert_autoClose := default_to autoClose (VBool true) |} in
          Normal {| alerts := alerts state ++ [newAlert];
                    isDrawerOpen := isDrawerOpen state;
                    isMobileView := isMobileView state;
                    theme := theme state |}
      | Throw x, _, _ | _, Throw x, _ | _, _, Throw x => Throw x
      end
  | RemoveAlert payload =>
      Normal {| alerts :=
                  filter (fun alert =>
                            strict_neq_string payload (alert_id alert))
                    (alerts state);
                isDrawerOpen := isDrawerOpen state;
                isMobileView := isMobileView state;
                theme := theme state |}
  | ClearAlerts =>
      Normal {| alerts := [];
                isDrawerOpen := isDrawerOpen state;
                isMobileView := isMobileView state;
                theme := theme state |}
  | ToggleDrawer =>
      Normal {| alerts := alerts state;
                isDrawerOpen := VBool (negb (truthy (isDrawerOpen state)));
                isMobileView := isMobileView state;
                theme := theme state |}
  | SetDrawerOpen payload =>
      Normal {| alerts := alerts state;
                isDrawerOpen := payload;
                isMobileView := isMobileView state;
                theme := theme state |}
  | SetMobileView payload =>
      Normal {| alerts := alerts state;
                isDrawerOpen := isDrawerOpen state;
                isMobileView := payload;
                theme := theme state |}
  | ToggleTheme =>
      Normal {| alerts := alerts state;
                isDrawerOpen := isDrawerOpen state;
                isMobileView := isMobileView state;
                theme := if negb (strict_neq_string (theme state) "light")
                         then VStr "dark" else VStr "light" |}
  | SetTheme payload =>
      Normal {| alerts := alerts state;
                isDrawerOpen := isDrawerOpen state;
                isMobileView := isMobileView state;
                theme := payload |}
  end.

(** [store.dispatch] on the [ui] slice. *)
Definition uiDispatch (now rnd : Z) (action : UiAction) (state : UiState)
  : UiState :=
  match uiReducer now rnd state action with
  | Normal st => st
  | Throw _ => state
  end.

(** [autoCloseAlerts] of the alert manager: the alerts it sets a timer for. *)
Definition autoCloseAlerts (state : UiState) : list Alert :=
  filter (fun alert => truthy (alert_autoClose alert)) (alerts state).

(** ** The submit handlers of the login and signup pages *)

(** The two slices the handlers dispatch to. *)
Record Store : Type := {
  session : System;
  ui : UiState
}.

(** [handleSubmit] of the login page.  [seen] is the [error] the page read
    from the store at the render the handler belongs to; the result is the
    store and the path handed to [navigate], if any. *)
Definition loginSubmit (seen : value) (values : value) (reply : Reply)
  (now rnd : Z) (st : Store) : Store * option string :=
  let s' := run OpLogin values reply (session st) in
  if negb (truthy seen) then
    ({| session := s';
        ui := uiDispatch now rnd
                (AddAlert
                   (VObj [("type", VStr "success");
                          ("message",
                           VStr "Login successful! Welcome back.")]))
                (ui st) |},
     Some "/profile")
  else ({| session := s'; ui := ui st |}, None).

(** [const { confirmPassword, ...userData } = values]. *)
Definition userData_of (values : list (string * value))
  : list (string * value) :=
  filter (fun kv => negb (fst kv =? "confirmPassword")) values.

(** [handleSubmit] of the signup page; the form values are an object. *)
Definition registerSubmit (seen : value) (values : list (string * value))
  (reply : Reply) (now rnd : Z) (st : Store) : Store * option string :=
  let s' := run OpRegister (VObj (userData_of values)) reply (session st) in
  if negb (truthy seen) then
    ({| session := s';
        ui := uiDispatch now rnd
                (AddAlert
                   (VObj [("type", VStr "success");
                          ("message",
                           VStr ("Registration successful! "
                                 ++ "Welcome to PovertyLine."))]))
                (ui st) |},
     Some "/profile")
  else ({| session := s'; ui := ui st |}, None).

(** ** More sample data *)

Definition welcome_fields : list (string * value) :=
  [("access_token", VStr "eyJ0"); ("user", ann)].

Definition form_values : list (string * value) :=
  [("username", VStr "ann"); ("email", VStr "ann@x.com");
   ("password", VStr "Abcd123!"); ("confirmPassword", VStr "Abcd123!");
   ("role", VStr "user")].

Definition admin_session : AuthState :=
  {| token := VStr "eyJ0"; isAuthenticated := true; user := root;
     isLoading := false; error := VNull |}.

Definition fresh_store : Store :=
  {| session := startup None; ui := uiInitialState 1280 |}.

Definition notice : value :=
  VObj [("type", VStr "warning"); ("message", VStr "Profile incomplete");
        ("autoClose", VNull)].

(** ** One token in three places *)

(** An accepted signup or login carries a non-empty string as its token. *)
Definition carries_string_token (ev : Event) : bool :=
  match ev with
  | Operation OpRegister _ (Resolves data)
  | Operation OpLogin _ (Resolves data) =>
      negb (present data)
      || match opt_member data "access_token" with
         | VStr t => negb (t =? "")
         | _ => false
         end
  | _ => true
  end.

(** While the durable store holds a token, the state holds the same one and
    the header carries it; an authenticated session has a stored token. *)
Definition token_in_step (s : System) : Prop :=
  (has_token (env s) = true ->
   token (auth s) = of_item (storage_token (env s)))
  /\ (isAuthenticated (auth s) = true ->
      has_token (env s) = true /\ agree (env s)).

Arguments supplied : simpl never.
Arguments rejectWith : simpl never.

(** ** Basic facts *)

Lemma truthy_present (v : value) : truthy v = true -> present v = true.
Proof. destruct v; simpl; intros H; congruence. Qed.

Lemma fold_left_invariant {A B} (f : A -> B -> A) (P : A -> Prop)
  (ok : B -> bool) :
  (forall a b, P a -> ok b = true -> P (f a b)) ->
  forall l a, P a -> forallb ok l = true -> P (fold_left f l a).
Proof.
  intros Hstep l; induction l as [|b l IH]; simpl; intros a Ha Hl.
  - exact Ha.
  - apply andb_true_iff in Hl as [Hb Hl]. apply IH; auto.
Qed.

(** Unfolds one operation down to the values it branches on. *)
Ltac unfold_run :=
  unfold step, run, outcome, dispatch, reducer, settle, payloadCreator,
    register, login, checkAuthStatus, logout, rejectWith, server_error,
    try_catch, bind, ret, lift, getItem, axios, setAuthToken, opt_member,
    member, or_else in *;
  simpl in *.

(** Splits on the next value a stuck [match] or [if] looks at. *)
Ltac split_match :=
  match goal with
  | |- context [match ?x with _ => _ end] =>
      is_var x; destruct x; simpl in *
  | |- context [match assoc ?k ?l with _ => _ end] =>
      destruct (assoc k l) eqn:?; simpl in *
  | |- context [if negb ?b then _ else _] =>
      destruct b eqn:?; simpl in *
  | |- context [if ?b then _ else _] =>
      destruct b eqn:?; simpl in *
  | |- context [match ?x with _ => _ end] =>
      destruct x eqn:?; simpl in *
  end.

(** ** Logout *)

(** C1. Whatever the session and whatever the server answers to the logout
    request, the logout operation ends fulfilled (it is never rejected), and
    leaves a session with [isAuthenticated = false], no token and no user; it
    does not write the error field, and the token is gone from the header
    and from the durable store as well. *)
Theorem logout_always_anonymous (s : System) (arg : value) (reply : Reply) :
  let s' := run OpLogout arg reply s in
  isAuthenticated (auth s') = false
  /\ token (auth s') = VNull
  /\ user (auth s') = VNull
  /\ outcome OpLogout arg reply (env s) = Fulfilled OpLogout VNull
  /\ error (auth s') = error (auth s)
  /\ storage_token (env s') = None
  /\ auth_header (env s') = None.
Proof.
  destruct reply; unfold_run; repeat split.
Qed.

(** ** The invariants of the session *)

Lemma step_user_when_authenticated (s : System) (ev : Event) :
  user_when_authenticated s -> carries_user ev = true ->
  user_when_authenticated (step s ev).
Proof.
  unfold user_when_authenticated.
  destruct s as [[tok au u ld er] e], ev as [op arg reply|]; simpl.
  - destruct op, reply as [data|err]; intros Hs Hev; unfold_run;
      repeat split_match; simpl in *; auto; try congruence.
  - intros Hs _. unfold_run. exact Hs.
Qed.

(** C2, as the code has it. From the state the module starts in, after any
    sequence of register, login, status-check and logout operations (and
    dismissals of the error), each with any reply of the server whose
    successes carry the user record, an authenticated session has a user. *)
Theorem authenticated_has_user (persisted : option string)
  (evs : list Event) :
  forallb carries_user evs = true ->
  isAuthenticated (auth (run_all evs (startup persisted))) = true ->
  present (user (auth (run_all evs (startup persisted)))) = true.
Proof.
  intros Hevs.
  apply (fold_left_invariant step user_when_authenticated carries_user);
    auto using step_user_when_authenticated.
  unfold user_when_authenticated; simpl; congruence.
Qed.

Lemma step_token_when_authenticated (s : System) (ev : Event) :
  token_when_authenticated s -> carries_token ev = true ->
  token_when_authenticated (step s ev).
Proof.
  unfold token_when_authenticated, has_token.
  destruct s as [[tok au u ld er] [st hd rq]], ev as [op arg reply|]; simpl.
  - destruct op, reply as [data|err]; intros [Hs1 Hs2] Hev; unfold_run;
      repeat split_match; simpl in *; split;
      auto using truthy_present; try congruence;
      intuition congruence.
  - intros Hs _. unfold_run. exact Hs.
Qed.

(** C5, as the code has it. From the state the module starts in, after any
    sequence of register, login, status-check and logout operations (and
    dismissals of the error), each run to completion with any reply of the
    server whose signup and login successes carry the access token, a session
    without a token is not authenticated. *)
Theorem no_token_not_authenticated (persisted : option string)
  (evs : list Event) :
  forallb carries_token evs = true ->
  present (token (auth (run_all evs (startup persisted)))) = false ->
  isAuthenticated (auth (run_all evs (startup persisted))) = false.
Proof.
  intros Hevs.
  apply (fold_left_invariant step token_when_authenticated carries_token);
    auto using step_token_when_authenticated.
  split; simpl; [|reflexivity].
  destruct persisted; unfold has_token; simpl; congruence.
Qed.

(** ** The status check *)

(** C3, as the code has it. A status check that finds no token in the durable
    store sends no request and is rejected with the value "No token found";
    the reducer of the rejected status check does not record that value: the
    error field of the session ends up [null], and the session is the
    anonymous one. *)
Theorem checkStatus_without_token (s : System) (arg : value)
  (reply : Reply) :
  storage_token (env s) = None ->
  let s' := run OpCheckStatus arg reply s in
  requests (env s') = requests (env s)
  /\ outcome OpCheckStatus arg reply (env s)
     = Rejected OpCheckStatus (VStr "No token found")
  /\ error (auth s') = VNull
  /\ isAuthenticated (auth s') = false
  /\ token (auth s') = VNull
  /\ user (auth s') = VNull.
Proof.
  destruct s as [st [stored hd rq]]; simpl; intros ->.
  unfold_run; repeat split.
Qed.

(** C6. With a token in the durable store, a status check whose verification
    request fails sends that request with the token attached, then removes
    the token from the durable store, from the header and from the state, and
    leaves the anonymous session. *)
Theorem checkStatus_failure_purges (s : System) (arg : value)
  (t : string) (err : list (string * value)) :
  storage_token (env s) = Some t -> t <> "" ->
  let s' := run OpCheckStatus arg (Rejects err) s in
  storage_token (env s') = None
  /\ auth_header (env s') = None
  /\ token (auth s') = VNull
  /\ isAuthenticated (auth s') = false
  /\ user (auth s') = VNull
  /\ requests (env s')
     = (requests (env s)
        ++ [{| req_method := GET; req_url := "/api/auth/me";
               req_body := VUndefined;
               req_authorization := Some ("Bearer " ++ t)%string |}])%list.
Proof.
  destruct s as [st [stored hd rq]]; simpl; intros -> Ht.
  apply String.eqb_neq in Ht.
  unfold_run. rewrite Ht; simpl.
  repeat split_match; repeat split.
Qed.

(** ** Failures *)

Lemma supplied_is_server_error (err : list (string * value)) (e : Env) :
  server_error (VObj err) e = (e, Normal (supplied (Rejects err))).
Proof.
  unfold server_error, supplied, bind, lift, ret, opt_member, member.
  destruct (assoc "response" err) as [[| | | | |response]|]; try reflexivity.
  destruct (assoc "data" response) as [[| | | | |data]|]; try reflexivity.
Qed.

Lemma rejectWith_supplied (err : list (string * value)) (fallback : string)
  (e : Env) :
  rejectWith (VObj err) fallback e
  = (e, Normal (RejectWithValue
                  (or_else (supplied (Rejects err)) (VStr fallback)))).
Proof.
  unfold rejectWith, bind. rewrite supplied_is_server_error. reflexivity.
Qed.

Lemma or_else_message (v : value) (fallback : string) :
  message_or_absent v = true ->
  or_else v (VStr fallback)
  = VStr match v with
         | VStr s => if s =? "" then fallback else s
         | _ => fallback
         end.
Proof.
  unfold or_else.
  destruct v as [| |b|n|m|f]; simpl; try reflexivity; try discriminate.
  - destruct b; [discriminate|reflexivity].
  - destruct (n =? 0)%Z; [reflexivity|discriminate].
  - destruct (m =? ""); reflexivity.
Qed.

(** What the payload creators return, reply by reply. *)

Lemma register_returns (arg : value) (reply : Reply) (e : Env) :
  snd (register arg reply e)
  = Normal match reply with
           | Resolves data =>
               if present data then Plain data
               else RejectWithValue (VStr "Registration failed")
           | Rejects err =>
               RejectWithValue (or_else (supplied (Rejects err))
                                  (VStr "Registration failed"))
           end.
Proof.
  unfold register, try_catch, bind, axios, lift, setAuthToken, ret.
  destruct reply as [data|err]; cbn.
  - destruct data; simpl; try reflexivity; repeat split_match; reflexivity.
  - rewrite rejectWith_supplied. reflexivity.
Qed.

Lemma login_returns (arg : value) (reply : Reply) (e : Env) :
  snd (login arg reply e)
  = Normal match reply with
           | Resolves data =>
               if present data then Plain data
               else RejectWithValue (VStr "Login failed")
           | Rejects err =>
               RejectWithValue (or_else (supplied (Rejects err))
                                  (VStr "Login failed"))
           end.
Proof.
  unfold login, try_catch, bind, axios, lift, setAuthToken, ret.
  destruct reply as [data|err]; cbn.
  - destruct data; simpl; try reflexivity; repeat split_match; reflexivity.
  - rewrite rejectWith_supplied. reflexivity.
Qed.

Lemma checkAuthStatus_returns (reply : Reply) (e : Env) :
  snd (checkAuthStatus reply e)
  = Normal (if has_token e then
              match reply with
              | Resolves data => Plain data
              | Rejects err =>
                  RejectWithValue (or_else (supplied (Rejects err))
                                     (VStr "Authentication failed"))
              end
            else RejectWithValue (VStr "No token found")).
Proof.
  unfold checkAuthStatus, try_catch, bind, getItem, axios, lift,
    setAuthToken, ret, has_token.
  destruct (truthy (of_item (storage_token e))); simpl; [|reflexivity].
  destruct reply as [data|err]; cbn; [reflexivity|].
  rewrite rejectWith_supplied. reflexivity.
Qed.

Lemma logout_returns (reply : Reply) (e : Env) :
  snd (logout reply e) = Normal (Plain VNull).
Proof. destruct reply; reflexivity. Qed.

(** C7, as the code has it. A signup or login whose request fails, and a
    status check with a stored token whose verification fails, are rejected
    with the error field the server supplied when that field is there (and
    truthy), whatever its type, and with "Registration failed", "Login
    failed" or "Authentication failed" otherwise; a signup or login answered
    with a body that is [null] or [undefined] is rejected with its default; a
    status check without a stored token is rejected with "No token found".
    The value of a rejection is one string, the one the error policy names,
    whenever the supplied error field is a string or is not there. *)
Theorem failure_value_policy (arg : value) (e : Env) :
  (forall op err,
      op = OpRegister \/ op = OpLogin ->
      outcome op arg (Rejects err) e
      = Rejected op (if truthy (supplied (Rejects err))
                     then supplied (Rejects err)
                     else VStr (default_message op)))
  /\ (forall op data,
         op = OpRegister \/ op = OpLogin ->
         present data = false ->
         outcome op arg (Resolves data) e
         = Rejected op (VStr (default_message op)))
  /\ (forall err,
         has_token e = true ->
         outcome OpCheckStatus arg (Rejects err) e
         = Rejected OpCheckStatus
             (if truthy (supplied (Rejects err))
              then supplied (Rejects err)
              else VStr "Authentication failed"))
  /\ (forall reply,
         has_token e = false ->
         outcome OpCheckStatus arg reply e
         = Rejected OpCheckStatus (VStr "No token found"))
  /\ (forall op reply payload,
         outcome op arg reply e = Rejected op payload ->
         message_or_absent (supplied reply) = true ->
         payload = VStr (message_spec op (has_token e) (supplied reply))).
Proof.
  unfold outcome, payloadCreator.
  split; [|split; [|split; [|split]]].
  - intros op err [-> | ->];
      rewrite ?register_returns, ?login_returns; reflexivity.
  - intros op data [-> | ->] Hdata;
      rewrite ?register_returns, ?login_returns, Hdata; reflexivity.
  - intros err Htok. rewrite checkAuthStatus_returns, Htok. reflexivity.
  - intros reply Htok. rewrite checkAuthStatus_returns, Htok. reflexivity.
  - intros op reply payload. unfold message_spec.
    destruct op;
      rewrite ?register_returns, ?login_returns, ?checkAuthStatus_returns,
        ?logout_returns;
      try destruct (has_token e); destruct reply as [data|err];
      try destruct (present data);
      simpl; try discriminate;
      intros [= <-] Hmsg; rewrite ?or_else_message by assumption;
      reflexivity.
Qed.

(** C8. In a session that is not authenticated and has no token, a login that
    fails leaves the failure message in the error field, the session not
    authenticated and without a token, and the user as it was; neither the
    header nor the durable store is written. *)
Theorem login_failure_frame (s : System) (arg : value) (reply : Reply)
  (payload : value) :
  isAuthenticated (auth s) = false ->
  present (token (auth s)) = false ->
  outcome OpLogin arg reply (env s) = Rejected OpLogin payload ->
  let s' := run OpLogin arg reply s in
  error (auth s') = payload
  /\ isAuthenticated (auth s') = false
  /\ present (token (auth s')) = false
  /\ user (auth s') = user (auth s)
  /\ isLoading (auth s') = false
  /\ storage_token (env s') = storage_token (env s)
  /\ auth_header (env s') = auth_header (env s).
Proof.
  destruct s as [[tok au u ld er] [stored hd rq]]; simpl.
  intros -> Htok.
  destruct reply as [data|err]; unfold_run.
  - destruct data; simpl in *; repeat split_match; try discriminate;
      intros [= <-]; repeat split; assumption.
  - intros [= <-]; repeat split; assumption.
Qed.

(** C10. Clearing the error sets the error field to [null] and changes no
    other field of the session, nor anything outside the store. *)
Theorem clearError_frame (s : System) :
  let s' := dispatch ClearError s in
  error (auth s') = VNull
  /\ token (auth s') = token (auth s)
  /\ isAuthenticated (auth s') = isAuthenticated (auth s)
  /\ user (auth s') = user (auth s)
  /\ isLoading (auth s') = isLoading (auth s)
  /\ env s' = env s.
Proof. repeat split. Qed.

(** ** The route guard *)

(** C4. What the guard renders is a function of the loading flag, the
    authenticated flag, the role of the user and the required role alone, and
    it is the one of section 4.2: nothing while loading, else a redirection
    to the login view when not authenticated, else a redirection home when a
    required role is given and the role of the user is another one, else the
    children.  A session of role "user" is sent home from a view that
    requires "admin"; a session of role "admin" gets the view. *)
Theorem ProtectedRoute_spec :
  (forall (Node : Type) (state : AuthState) (children : Node)
          (requiredRole : option string),
      ProtectedRoute state children requiredRole
      = render children
          (guard_spec (isAuthenticated state)
             (opt_member (user state) "role") (isLoading state)
             requiredRole))
  /\ (forall (Node : Type) (tok err : value) (children : Node)
             (fields : list (string * value)),
         assoc "role" fields = Some (VStr "user") ->
         ProtectedRoute
           {| token := tok; isAuthenticated := true; user := VObj fields;
              isLoading := false; error := err |}
           children (Some "admin")
         = Navigate "/")
  /\ (forall (Node : Type) (tok err : value) (children : Node)
             (fields : list (string * value)),
         assoc "role" fields = Some (VStr "admin") ->
         ProtectedRoute
           {| token := tok; isAuthenticated := true; user := VObj fields;
              isLoading := false; error := err |}
           children (Some "admin")
         = RenderChildren children).
Proof.
  split; [|split].
  - intros Node [tok au u ld er] children requiredRole.
    unfold ProtectedRoute, guard_spec, render, strict_neq_string; simpl.
    destruct ld, au; simpl; try reflexivity.
    destruct requiredRole as [r|]; simpl; [|reflexivity].
    destruct (r =? ""); simpl; [reflexivity|].
    destruct (opt_member u "role") as [| |b|n|t|f]; simpl; try reflexivity.
    destruct (t =? r); reflexivity.
  - intros Node tok err children fields Hrole.
    unfold ProtectedRoute, opt_member, member; simpl. rewrite Hrole.
    reflexivity.
  - intros Node tok err children fields Hrole.
    unfold ProtectedRoute, opt_member, member; simpl. rewrite Hrole.
    reflexivity.
Qed.

(** ** The token in the header and in the durable store *)


Lemma env_dispatch (a : Action) (s : System) : env (dispatch a s) = env s.
Proof. unfold dispatch. destruct (reducer (auth s) a); reflexivity. Qed.

Lemma env_run (op : Op) (arg : value) (reply : Reply) (s : System) :
  env (run op arg reply s) = fst (payloadCreator op arg reply (env s)).
Proof.
  unfold run. rewrite env_dispatch.
  destruct (payloadCreator op arg reply (env s)) as [e' c].
  rewrite env_dispatch. reflexivity.
Qed.





(** ** The theorems at concrete sessions *)

(** A login that succeeds leaves an authenticated session with its user. *)
Lemma authenticated_has_user_witness :
  forallb carries_user [Operation OpLogin credentials welcome] = true
  /\ isAuthenticated
       (auth (run_all [Operation OpLogin credentials welcome]
                (startup None))) = true
  /\ present
       (user (auth (run_all [Operation OpLogin credentials welcome]
                      (startup None)))) = true.
Proof.
  split; [reflexivity|]. split; [reflexivity|].
  apply (authenticated_has_user None
           [Operation OpLogin credentials welcome]); reflexivity.
Defined.

(** A login followed by a logout whose request fails: no token, and not
    authenticated. *)
Lemma no_token_not_authenticated_witness :
  isAuthenticated
    (auth (run_all [Operation OpLogin credentials welcome;
                    Operation OpLogout VUndefined network_down]
             (startup None))) = false.
Proof.
  apply (no_token_not_authenticated None
           [Operation OpLogin credentials welcome;
            Operation OpLogout VUndefined network_down]); reflexivity.
Defined.

(** The first status check of a visitor who never logged in. *)
Lemma checkStatus_without_token_witness :
  requests (env (run OpCheckStatus VUndefined welcome (startup None))) = []
  /\ error (auth (run OpCheckStatus VUndefined welcome (startup None)))
     = VNull.
Proof.
  destruct (checkStatus_without_token (startup None) VUndefined welcome
              eq_refl) as (Hreq & _ & Herr & _).
  split; [exact Hreq|exact Herr].
Defined.

(** C3, as stated, fails: after a status check with an empty durable store
    the error field is [null], not "No token found". *)
Lemma status_check_message_not_recorded :
  ~ (requests (env (run OpCheckStatus VUndefined welcome (startup None)))
     = []
     /\ error (auth (run OpCheckStatus VUndefined welcome (startup None)))
        = VStr "No token found").
Proof. intros [_ H]. vm_compute in H. discriminate H. Qed.

(** A status check with a stale token. *)
Lemma checkStatus_failure_purges_witness :
  storage_token
    (env (run OpCheckStatus VUndefined (Rejects expired)
            (startup (Some "eyJ0"))))
  = None
  /\ token
       (auth (run OpCheckStatus VUndefined (Rejects expired)
                (startup (Some "eyJ0"))))
     = VNull.
Proof.
  assert (Hne : "eyJ0" <> "") by discriminate.
  destruct (checkStatus_failure_purges (startup (Some "eyJ0")) VUndefined
              "eyJ0" expired eq_refl Hne) as (Hst & _ & Htok & _).
  split; [exact Hst|exact Htok].
Defined.

(** The message of a refused login is the one the server sent. *)
Lemma failure_value_policy_witness :
  outcome OpLogin credentials wrong_password (env (startup None))
  = Rejected OpLogin (VStr "Invalid username or password")
  /\ outcome OpRegister credentials (Resolves VNull) (env (startup None))
     = Rejected OpRegister (VStr "Registration failed").
Proof.
  destruct (failure_value_policy credentials (env (startup None)))
    as (Hfail & Hempty & _).
  split.
  - exact (Hfail OpLogin
             [("message", VStr "Request failed with status code 401");
              ("response",
               VObj [("status", VNum 401);
                     ("data",
                      VObj [("error",
                             VStr "Invalid username or password")])])]
             (or_intror eq_refl)).
  - exact (Hempty OpRegister VNull (or_introl eq_refl) eq_refl).
Defined.

(** C7, as stated, fails: an error field that is an object is handed on as
    the value of the rejection, which then is not a string. *)
Lemma error_object_handed_on :
  ~ (exists msg : string,
        outcome OpLogin credentials coded_refusal (env (startup None))
        = Rejected OpLogin (VStr msg)).
Proof. intros [msg H]. vm_compute in H. discriminate H. Qed.

(** C2, as stated, fails: a login accepted with a body that has no user
    leaves an authenticated session without a user. *)
Lemma authenticated_without_user :
  ~ (isAuthenticated
       (auth (run_all [Operation OpLogin credentials nameless]
                (startup None))) = true ->
     present
       (user (auth (run_all [Operation OpLogin credentials nameless]
                      (startup None)))) = true).
Proof. intros H. specialize (H eq_refl). vm_compute in H. discriminate H. Qed.

(** C5, as stated, fails: a login accepted with a body that has no token
    leaves an authenticated session without a token. *)
Lemma tokenless_yet_authenticated :
  ~ (present
       (token (auth (run_all [Operation OpLogin credentials tokenless]
                       (startup None)))) = false ->
     isAuthenticated
       (auth (run_all [Operation OpLogin credentials tokenless]
                (startup None))) = false).
Proof. intros H. specialize (H eq_refl). vm_compute in H. discriminate H. Qed.

(** A refused login from the anonymous session. *)
Lemma login_failure_frame_witness :
  error (auth (run OpLogin credentials wrong_password (startup None)))
  = VStr "Invalid username or password"
  /\ isAuthenticated
       (auth (run OpLogin credentials wrong_password (startup None)))
     = false.
Proof.
  destruct (login_failure_frame (startup None) credentials wrong_password
              (VStr "Invalid username or password")
              eq_refl eq_refl eq_refl) as (Herr & Hau & _).
  split; [exact Herr|exact Hau].
Defined.

(** The dashboard route for [ann] and for [root]. *)
Lemma ProtectedRoute_spec_witness :
  ProtectedRoute
    {| token := VStr "eyJ0"; isAuthenticated := true; user := ann;
       isLoading := false; error := VNull |}
    tt (Some "admin")
  = Navigate "/"
  /\ ProtectedRoute
       {| token := VStr "eyJ0"; isAuthenticated := true; user := root;
          isLoading := false; error := VNull |}
       tt (Some "admin")
     = RenderChildren tt.
Proof.
  split.
  - apply (proj1 (proj2 ProtectedRoute_spec)). reflexivity.
  - apply (proj2 (proj2 ProtectedRoute_spec)). reflexivity.
Defined.



(** ** More on the session operations *)

(** The request an operation sends, if it sends one: signup, login and logout
    post with the header of the moment; the status check attaches the token
    it has just read from the durable store, and sends nothing without one. *)
Lemma requests_of_run (op : Op) (arg : value) (reply : Reply) (s : System) :
  requests (env (run op arg reply s))
  = (requests (env s)
     ++ match op with
        | OpRegister =>
            [{| req_method := POST; req_url := "/api/auth/register";
                req_body := arg;
                req_authorization := auth_header (env s) |}]
        | OpLogin =>
            [{| req_method := POST; req_url := "/api/auth/login";
                req_body := arg;
                req_authorization := auth_header (env s) |}]
        | OpCheckStatus =>
            if has_token (env s) then
              [{| req_method := GET; req_url := "/api/auth/me";
                  req_body := VUndefined;
                  req_authorization :=
                    Some ("Bearer "
                          ++ to_string (of_item (storage_token (env s))))
                      %string |}]
            else []
        | OpLogout =>
            [{| req_method := POST; req_url := "/api/auth/logout";
                req_body := VUndefined;
                req_authorization := auth_header (env s) |}]
        end)%list.
Proof.
  rewrite env_run. unfold has_token.
  destruct s as [st [stored hd rq]]; simpl.
  destruct op, reply as [data|err]; unfold_run;
    repeat split_match; simpl; rewrite ?app_nil_r; reflexivity.
Qed.

(** A signup or login that the server accepts with a non-empty string token:
    the session is authenticated with that token and the user of the reply,
    nothing is loading, no error is left, and the token is in the durable
    store and in the header. *)
Theorem sign_in_success (op : Op) (arg : value)
  (fields : list (string * value)) (t : string) (s : System) :
  op = OpRegister \/ op = OpLogin ->
  assoc "access_token" fields = Some (VStr t) ->
  t <> "" ->
  let s' := run op arg (Resolves (VObj fields)) s in
  auth s'
  = {| token := VStr t;
       isAuthenticated := true;
       user := opt_member (VObj fields) "user";
       isLoading := false;
       error := VNull |}
  /\ storage_token (env s') = Some t
  /\ auth_header (env s') = Some ("Bearer " ++ t).
Proof.
  intros Hop Htok Ht. apply String.eqb_neq in Ht.
  destruct s as [st [stored hd rq]].
  destruct Hop as [-> | ->]; unfold_run; rewrite Htok; simpl;
    rewrite Ht; simpl; rewrite Htok; repeat split.
Qed.

(** A status check that finds a token and is answered with a body: the
    session is authenticated with the user of the reply; the token of the
    state is not written, the durable store keeps its token and the header
    carries it. *)
Theorem status_check_success (arg data : value) (t : string) (s : System) :
  storage_token (env s) = Some t ->
  t <> "" ->
  present data = true ->
  let s' := run OpCheckStatus arg (Resolves data) s in
  auth s'
  = {| token := token (auth s);
       isAuthenticated := true;
       user := opt_member data "user";
       isLoading := false;
       error := VNull |}
  /\ storage_token (env s') = Some t
  /\ auth_header (env s') = Some ("Bearer " ++ t).
Proof.
  intros Hst Ht Hdata. apply String.eqb_neq in Ht.
  destruct s as [st [stored hd rq]]; simpl in Hst; subst stored.
  unfold_run. rewrite Ht; simpl.
  destruct data; try discriminate; simpl; repeat split.
Qed.

(** The token survives a reload: after a login accepted with a non-empty
    string token, the application started again over the durable store as
    the login left it, and its status check answered with a body, is
    authenticated with the same token in the state, in the store and in the
    header, and the check went out with that token. *)
Theorem token_survives_reload (arg arg' data : value)
  (fields : list (string * value)) (t : string) (s : System) :
  assoc "access_token" fields = Some (VStr t) ->
  t <> "" ->
  present data = true ->
  let s1 := run OpLogin arg (Resolves (VObj fields)) s in
  let s2 := run OpCheckStatus arg' (Resolves data)
              (startup (storage_token (env s1))) in
  token (auth s2) = token (auth s1)
  /\ isAuthenticated (auth s2) = true
  /\ user (auth s2) = opt_member data "user"
  /\ storage_token (env s2) = Some t
  /\ auth_header (env s2) = Some ("Bearer " ++ t)
  /\ requests (env s2)
     = [{| req_method := GET; req_url := "/api/auth/me";
           req_body := VUndefined;
           req_authorization := Some ("Bearer " ++ t) |}].
Proof.
  intros Htok Ht Hdata. apply String.eqb_neq in Ht.
  destruct s as [st [stored hd rq]].
  unfold_run. rewrite Htok; simpl. rewrite Ht; simpl. rewrite Htok; simpl.
  rewrite Ht; simpl.
  destruct data; try discriminate; simpl; repeat split.
Qed.

(** A signup or login answered with a body that is [null] or [undefined] is
    a failure: the read of the token throws, the operation is rejected
    with its default message, which is left in the error field, and neither
    the session nor the header nor the durable store is touched otherwise. *)
Theorem empty_body_is_failure (op : Op) (arg data : value) (s : System) :
  op = OpRegister \/ op = OpLogin ->
  present data = false ->
  let s' := run op arg (Resolves data) s in
  outcome op arg (Resolves data) (env s)
  = Rejected op (VStr (default_message op))
  /\ auth s'
     = {| token := token (auth s);
          isAuthenticated := isAuthenticated (auth s);
          user := user (auth s);
          isLoading := false;
          error := VStr (default_message op) |}
  /\ storage_token (env s') = storage_token (env s)
  /\ auth_header (env s') = auth_header (env s).
Proof.
  intros Hop Hdata. destruct s as [st [stored hd rq]].
  destruct Hop as [-> | ->]; destruct data; try discriminate;
    unfold_run; repeat split.
Qed.

(** A signup or login accepted without a usable token (the field is missing,
    [null], empty, [0] or [false]) removes whatever token the durable store
    and the header held, and still marks the session authenticated; the
    status check that follows finds no token, sends nothing and resets the
    session. *)
Theorem success_without_token (op : Op) (arg arg' : value)
  (fields : list (string * value)) (reply' : Reply) (s : System) :
  op = OpRegister \/ op = OpLogin ->
  truthy (opt_member (VObj fields) "access_token") = false ->
  let s1 := run op arg (Resolves (VObj fields)) s in
  let s2 := run OpCheckStatus arg' reply' s1 in
  isAuthenticated (auth s1) = true
  /\ token (auth s1) = opt_member (VObj fields) "access_token"
  /\ storage_token (env s1) = None
  /\ auth_header (env s1) = None
  /\ isAuthenticated (auth s2) = false
  /\ token (auth s2) = VNull
  /\ user (auth s2) = VNull
  /\ requests (env s2) = requests (env s1).
Proof.
  intros Hop Htok. destruct s as [st [stored hd rq]].
  destruct Hop as [-> | ->]; unfold_run; rewrite Htok; simpl;
    repeat split.
Qed.

(** After a logout, whatever the server said to it, a status check sends
    nothing and is rejected for want of a token: the only request of the two
    operations is the logout one, sent with the header of before, and the
    session is the anonymous one. *)
Theorem logout_then_status_check (arg arg' : value) (reply reply' : Reply)
  (s : System) :
  let s1 := run OpLogout arg reply s in
  let s2 := run OpCheckStatus arg' reply' s1 in
  outcome OpCheckStatus arg' reply' (env s1)
  = Rejected OpCheckStatus (VStr "No token found")
  /\ requests (env s2)
     = (requests (env s)
        ++ [{| req_method := POST; req_url := "/api/auth/logout";
               req_body := VUndefined;
               req_authorization := auth_header (env s) |}])%list
  /\ isAuthenticated (auth s2) = false
  /\ token (auth s2) = VNull
  /\ user (auth s2) = VNull
  /\ storage_token (env s2) = None
  /\ auth_header (env s2) = None.
Proof.
  destruct s as [st [stored hd rq]].
  destruct reply; unfold_run; repeat split.
Qed.

(** A signup or login that is rejected, for whatever reason, changes nothing
    but the loading flag and the error field: a session that was
    authenticated stays so, with its token and user, and header and durable
    store keep what they held. *)
Theorem sign_in_rejected_frame (op : Op) (arg payload : value)
  (reply : Reply) (s : System) :
  op = OpRegister \/ op = OpLogin ->
  outcome op arg reply (env s) = Rejected op payload ->
  let s' := run op arg reply s in
  auth s'
  = {| token := token (auth s);
       isAuthenticated := isAuthenticated (auth s);
       user := user (auth s);
       isLoading := false;
       error := payload |}
  /\ storage_token (env s') = storage_token (env s)
  /\ auth_header (env s') = auth_header (env s).
Proof.
  intros Hop. destruct s as [st [stored hd rq]].
  destruct Hop as [-> | ->]; destruct reply as [data|err]; unfold_run;
    try (destruct data; simpl in *; repeat split_match; try discriminate);
    intros [= <-]; repeat split.
Qed.

Lemma loading_flag_of_run (op : Op) (arg : value) (reply : Reply)
  (s : System) :
  isLoading (auth (run op arg reply s))
  = match op, reply with
    | OpCheckStatus, Resolves data => has_token (env s) && negb (present data)
    | _, _ => false
    end.
Proof.
  unfold has_token. destruct s as [st [stored hd rq]].
  destruct op, reply as [data|err]; unfold_run;
    try (destruct data; simpl in *); repeat split_match; reflexivity.
Qed.

(** Every operation ends with the loading flag down, except a status check
    that found a token and is answered with a body that is [null] or
    [undefined]: the reducer of the fulfilled check then throws on the read
    of the user and the flag stays up. *)
Theorem loading_ends (op : Op) (arg : value) (reply : Reply) (s : System) :
  isLoading (auth (run op arg reply s)) = true
  <-> op = OpCheckStatus
      /\ has_token (env s) = true
      /\ exists data, reply = Resolves data /\ present data = false.
Proof.
  rewrite loading_flag_of_run. split.
  - destruct op, reply as [data|err]; try discriminate.
    intros H. apply andb_true_iff in H as [Hhas Hdata].
    apply negb_true_iff in Hdata. eauto.
  - intros (-> & Hhas & data & -> & Hdata). rewrite Hhas, Hdata.
    reflexivity.
Qed.

(** No operation sends more than one request, whatever the server answers;
    only a status check without a stored token sends none.  Signup, login
    and logout requests go out with the header of the moment, the status
    check with the token it has just read from the durable store. *)
Theorem at_most_one_request (op : Op) (arg : value) (reply : Reply)
  (s : System) :
  exists sent : list Request,
    requests (env (run op arg reply s)) = (requests (env s) ++ sent)%list
    /\ length sent <= 1
    /\ (sent = [] <-> op = OpCheckStatus /\ has_token (env s) = false)
    /\ (forall r, In r sent ->
          req_authorization r
          = match op with
            | OpCheckStatus =>
                Some ("Bearer "
                      ++ to_string (of_item (storage_token (env s))))
            | _ => auth_header (env s)
            end).
Proof.
  rewrite requests_of_run.
  eexists; split; [reflexivity|].
  destruct op; try destruct (has_token (env s)); simpl;
    repeat split; auto; try discriminate; try tauto;
    try (intros [_ H]; discriminate H);
    try (intros [H _]; discriminate H);
    intros r [<-|[]]; reflexivity.
Qed.

(** ** Routing *)

(** What [App] shows is its loading box, a page, or a redirection that
    lands on a page at once: no redirection leads to another one, and the
    guard never gets to render nothing. *)
Theorem redirects_settle (state : AuthState) (route : Route) :
  App state route = LoadingBox
  \/ (exists page, App state route = Routed (RenderChildren page))
  \/ (exists target route' page,
         App state route = Routed (Navigate target)
         /\ static_route target = Some route'
         /\ App state route' = Routed (RenderChildren page)).
Proof.
  destruct state as [tok au u ld er].
  unfold App, route_element, ProtectedRoute; simpl.
  destruct ld; [left; reflexivity|right].
  destruct route, au; simpl; eauto;
    try (right; eexists _, _, _; repeat split; reflexivity).
  destruct (strict_neq_string (opt_member u "role") "admin"); eauto.
  right; eexists _, _, _; repeat split; reflexivity.
Qed.

(** Who gets which page: the dashboard is mounted exactly when nothing is
    loading, the session is authenticated and the role of the user is the
    string "admin"; the profile page exactly when nothing is loading and the
    session is authenticated; the login and signup pages exactly when nothing
    is loading and the session is not authenticated. *)
Theorem who_sees_what (state : AuthState) :
  (App state RouteDashboard = Routed (RenderChildren DashboardPage)
   <-> isLoading state = false /\ isAuthenticated state = true
       /\ opt_member (user state) "role" = VStr "admin")
  /\ (App state RouteProfile = Routed (RenderChildren ProfilePage)
      <-> isLoading state = false /\ isAuthenticated state = true)
  /\ (App state RouteLogin = Routed (RenderChildren LoginPage)
      <-> isLoading state = false /\ isAuthenticated state = false)
  /\ (App state RouteRegister = Routed (RenderChildren RegisterPage)
      <-> isLoading state = false /\ isAuthenticated state = false).
Proof.
  destruct state as [tok au u ld er].
  unfold App, route_element, ProtectedRoute, strict_neq_string; simpl.
  repeat split; destruct ld, au; simpl; try discriminate; try tauto;
    try (intros (? & ? & ?); discriminate);
    try (intros (? & ?); discriminate).
  - destruct (opt_member u "role") as [| |b|n|r|f]; try discriminate.
    destruct (r =? "admin") eqn:Hr; try discriminate.
    apply String.eqb_eq in Hr. subst r. reflexivity.
  - intros (_ & _ & ->). reflexivity.
Qed.

(** The header offers only links that lead to a page: when nothing is
    loading, no link of [navLinks] is answered with a redirection.  The
    dashboard link is offered exactly when the session is authenticated and
    the role of the user is "admin". *)
Theorem navLinks_reach_pages (state : AuthState) :
  (forall text path,
      isLoading state = false ->
      In (text, path) (navLinks state) ->
      exists route page,
        static_route path = Some route
        /\ App state route = Routed (RenderChildren page))
  /\ (In ("Dashboard", "/dashboard") (navLinks state)
      <-> isAuthenticated state = true
          /\ opt_member (user state) "role" = VStr "admin").
Proof.
  destruct state as [tok au u ld er].
  unfold navLinks, App, strict_neq_string; simpl. split.
  - intros text path ->.
    destruct au; simpl.
    + destruct (opt_member u "role") as [| |b|n|r|f] eqn:Hrole; simpl;
        try (intros [[= <- <-]|[[= <- <-]|[[= <- <-]|[]]]];
             eexists _, _; split; reflexivity).
      destruct (r =? "admin") eqn:Hr; simpl;
        intros H; repeat (destruct H as [[= <- <-]|H]); try destruct H;
        try (eexists _, _; split; reflexivity).
      apply String.eqb_eq in Hr; subst r.
      exists RouteDashboard, DashboardPage. split; [reflexivity|].
      unfold route_element, ProtectedRoute; simpl. rewrite Hrole.
      reflexivity.
    + intros H; repeat (destruct H as [[= <- <-]|H]); try destruct H;
        eexists _, _; split; reflexivity.
  - destruct au; simpl.
    + destruct (opt_member u "role") as [| |b|n|r|f]; simpl;
        try (split; [intros [[=]|[[=]|[[=]|[]]]]|intros [_ [=]]]).
      destruct (r =? "admin") eqn:Hr; simpl.
      * apply String.eqb_eq in Hr; subst r. split; auto.
      * split; [intros [[=]|[[=]|[[=]|[]]]]|].
        intros [_ [= ->]]. discriminate Hr.
    + split; [intros [[=]|[[=]|[[=]|[[=]|[]]]]]|intros [[=] _]].
Qed.

(** ** Alerts and toggles *)

Lemma filter_same {A} (f : A -> bool) (l : list A) :
  (forall a, In a l -> f a = true) -> filter f l = l.
Proof.
  induction l as [|a l IH]; simpl; intros H; [reflexivity|].
  rewrite (H a) by auto. f_equal. apply IH. auto.
Qed.

Lemma filter_swap {A} (f g : A -> bool) (l : list A) :
  filter f (filter g l) = filter g (filter f l).
Proof.
  induction l as [|a l IH]; simpl; [reflexivity|].
  destruct (f a) eqn:Hf, (g a) eqn:Hg; simpl; rewrite ?Hf, ?Hg, IH;
    reflexivity.
Qed.

Lemma filter_twice {A} (f : A -> bool) (l : list A) :
  filter f (filter f l) = filter f l.
Proof.
  induction l as [|a l IH]; simpl; [reflexivity|].
  destruct (f a) eqn:Hf; simpl; rewrite ?Hf, IH; reflexivity.
Qed.

(** Closing the alert that was just added: every alert with the id of the
    new one goes, older ones included, since nothing makes the generated ids
    differ; when no older alert has that id, the list of alerts is the one
    from before the addition. *)
Theorem close_new_alert (now rnd now' rnd' : Z) (payload : value)
  (state : UiState) :
  present payload = true ->
  let id := generateAlertId now rnd in
  let st1 := uiDispatch now rnd (AddAlert payload) state in
  let st2 := uiDispatch now' rnd' (RemoveAlert (VStr id)) st1 in
  alerts st2 = filter (fun a => negb (id =? alert_id a)) (alerts state)
  /\ ((forall a, In a (alerts state) -> alert_id a <> id) ->
      alerts st2 = alerts state).
Proof.
  intros Hp id st1 st2.
  assert (Heq : alerts st2
                = filter (fun a => negb (id =? alert_id a)) (alerts state)).
  { subst st1 st2 id. unfold uiDispatch, uiReducer.
    destruct payload; try discriminate; simpl;
      rewrite filter_app; simpl; rewrite String.eqb_refl; simpl;
      apply app_nil_r. }
  split; [exact Heq|].
  intros Hfresh. rewrite Heq. apply filter_same.
  intros a Ha. apply negb_true_iff, String.eqb_neq.
  intros E. apply (Hfresh a Ha). symmetry; exact E.
Qed.

(** Removals by id compose: removing an id twice is removing it once, two
    removals commute, and a removal by something that is not a string
    removes nothing. *)
Theorem removeAlert_composes (now rnd : Z) (p q : value) (state : UiState) :
  uiDispatch now rnd (RemoveAlert p) (uiDispatch now rnd (RemoveAlert p) state)
  = uiDispatch now rnd (RemoveAlert p) state
  /\ uiDispatch now rnd (RemoveAlert p)
       (uiDispatch now rnd (RemoveAlert q) state)
     = uiDispatch now rnd (RemoveAlert q)
         (uiDispatch now rnd (RemoveAlert p) state)
  /\ ((forall id, p <> VStr id) ->
      uiDispatch now rnd (RemoveAlert p) state = state).
Proof.
  unfold uiDispatch, uiReducer; simpl. repeat split.
  - rewrite filter_twice. reflexivity.
  - rewrite filter_swap. reflexivity.
  - intros Hp. destruct state as [al dr mv th]; simpl. f_equal.
    apply filter_same. intros a _.
    destruct p; try reflexivity. exfalso. apply (Hp s). reflexivity.
Qed.

(** Adding an alert puts it last; the alert manager sets a timer for it
    unless its [autoClose] was given and is falsy: the default applies to a
    missing or [undefined] field only, so [null] switches the timer off.  A
    payload that is [null] or [undefined] makes the reducer throw and adds
    nothing. *)
Theorem addAlert_schedules (now rnd : Z) (payload : value)
  (state : UiState) :
  let st' := uiDispatch now rnd (AddAlert payload) state in
  let added :=
    {| alert_id := generateAlertId now rnd;
       alert_type := default_to (opt_member payload "type") (VStr "info");
       alert_message := opt_member payload "message";
       alert_autoClose :=
         default_to (opt_member payload "autoClose") (VBool true) |} in
  (present payload = true ->
   alerts st' = (alerts state ++ [added])%list
   /\ autoCloseAlerts st'
      = (autoCloseAlerts state
         ++ match opt_member payload "autoClose" with
            | VUndefined => [added]
            | v => if truthy v then [added] else []
            end)%list)
  /\ (present payload = false -> st' = state).
Proof.
  unfold uiDispatch, uiReducer, autoCloseAlerts, opt_member.
  destruct payload; simpl; split; try discriminate; try reflexivity;
    intros _; split; try reflexivity;
    rewrite filter_app; simpl; try reflexivity.
  destruct (assoc "autoClose" fields) as [[| |b|n|m|f]|]; simpl;
    try reflexivity; repeat split_match; reflexivity.
Qed.

(** The theme toggle yields "light" or "dark" whatever the theme was; two
    toggles give back the theme exactly when it was one of the two, and three
    toggles always equal one.  Two drawer toggles leave the drawer flag as the
    boolean its value counted for. *)
Theorem toggles_settle (now rnd : Z) (state : UiState) :
  let t1 := uiDispatch now rnd ToggleTheme state in
  let t2 := uiDispatch now rnd ToggleTheme t1 in
  let t3 := uiDispatch now rnd ToggleTheme t2 in
  let d2 := uiDispatch now rnd ToggleDrawer
              (uiDispatch now rnd ToggleDrawer state) in
  (theme t1 = VStr "light" \/ theme t1 = VStr "dark")
  /\ (theme t2 = theme state
      <-> theme state = VStr "light" \/ theme state = VStr "dark")
  /\ theme t3 = theme t1
  /\ isDrawerOpen d2 = VBool (truthy (isDrawerOpen state)).
Proof.
  unfold uiDispatch, uiReducer, strict_neq_string; simpl.
  destruct (theme state) as [| |b|n|m|f] eqn:Hth; simpl;
    try (repeat split; auto; try discriminate;
         try (intros [H|H]; discriminate H);
         rewrite negb_involutive; reflexivity).
  destruct (m =? "light") eqn:Hm; simpl.
  - apply String.eqb_eq in Hm; subst m.
    repeat split; auto. rewrite negb_involutive; reflexivity.
  - split; [left; reflexivity|]. split; [split|].
    + intros [= <-]. right; reflexivity.
    + intros [[= ->]|[= ->]]; [discriminate Hm|reflexivity].
    + split; [reflexivity|rewrite negb_involutive; reflexivity].
Qed.

(** ** The submit handlers *)

(** The alert the login page raises. *)
Lemma loginSubmit_alerts (seen values : value) (reply : Reply) (now rnd : Z)
  (st : Store) :
  alerts (ui (fst (loginSubmit seen values reply now rnd st)))
  = if truthy seen then alerts (ui st)
    else (alerts (ui st)
          ++ [{| alert_id := generateAlertId now rnd;
                 alert_type := VStr "success";
                 alert_message := VStr "Login successful! Welcome back.";
                 alert_autoClose := VBool true |}])%list.
Proof. unfold loginSubmit. destruct (truthy seen); reflexivity. Qed.

(** A login that is rejected, submitted from a page that showed no error by
    a visitor who is not authenticated: the error is recorded, and all the
    same the success alert is raised and the page navigates to the profile,
    where the guard sends the visitor back to the login view. *)
Theorem loginSubmit_congratulates_failure (seen values payload : value)
  (reply : Reply) (now rnd : Z) (st : Store) :
  truthy seen = false ->
  isAuthenticated (auth (session st)) = false ->
  outcome OpLogin values reply (env (session st))
  = Rejected OpLogin payload ->
  let res := loginSubmit seen values reply now rnd st in
  snd res = Some "/profile"
  /\ alerts (ui (fst res))
     = (alerts (ui st)
        ++ [{| alert_id := generateAlertId now rnd;
               alert_type := VStr "success";
               alert_message := VStr "Login successful! Welcome back.";
               alert_autoClose := VBool true |}])%list
  /\ error (auth (session (fst res))) = payload
  /\ static_route "/profile" = Some RouteProfile
  /\ App (auth (session (fst res))) RouteProfile
     = Routed (Navigate "/login").
Proof.
  intros Hseen Hauth Hout res.
  assert (Hses : session (fst res) = run OpLogin values reply (session st)).
  { subst res. unfold loginSubmit. rewrite Hseen. reflexivity. }
  split; [subst res; unfold loginSubmit; rewrite Hseen; reflexivity|].
  split; [subst res; rewrite loginSubmit_alerts, Hseen; reflexivity|].
  rewrite Hses. clear Hses res.
  destruct st as [[[tok au u ld er] [stored hd rq]] u0]; simpl in *.
  subst au. revert Hout.
  destruct reply as [data|err]; unfold_run;
    try (destruct data; simpl in *; repeat split_match; try discriminate);
    intros [= <-]; repeat split.
Qed.

(** A login that succeeds, submitted from a page that still showed the error
    of an earlier attempt: the session is authenticated, yet the handler
    raises no alert and does not navigate; it is the login route that then
    redirects to the profile. *)
Theorem loginSubmit_silent_success (seen values : value)
  (fields : list (string * value)) (t : string) (now rnd : Z) (st : Store) :
  truthy seen = true ->
  assoc "access_token" fields = Some (VStr t) ->
  t <> "" ->
  let res := loginSubmit seen values (Resolves (VObj fields)) now rnd st in
  snd res = None
  /\ ui (fst res) = ui st
  /\ isAuthenticated (auth (session (fst res))) = true
  /\ error (auth (session (fst res))) = VNull
  /\ App (auth (session (fst res))) RouteLogin
     = Routed (Navigate "/profile").
Proof.
  intros Hseen Htok Ht res. apply String.eqb_neq in Ht.
  subst res. unfold loginSubmit. rewrite Hseen; simpl.
  destruct st as [[[tok au u ld er] [stored hd rq]] u0]; simpl.
  unfold_run. rewrite Htok; simpl. rewrite Ht; simpl. rewrite Htok; simpl.
  repeat split.
Qed.

Lemma assoc_userData_of (k : string) (values : list (string * value)) :
  assoc k (userData_of values)
  = if k =? "confirmPassword" then None else assoc k values.
Proof.
  induction values as [|[k' v] values IH]; simpl.
  - destruct (k =? "confirmPassword"); reflexivity.
  - destruct (k' =? "confirmPassword") eqn:Hk'; simpl.
    + rewrite IH. destruct (k =? "confirmPassword") eqn:Hk; [reflexivity|].
      destruct (k' =? k) eqn:Hkk; [|reflexivity].
      apply String.eqb_eq in Hkk, Hk'. subst.
      rewrite String.eqb_refl in Hk. discriminate Hk.
    + destruct (k' =? k) eqn:Hkk.
      * apply String.eqb_eq in Hkk. subst k'. rewrite Hk'. reflexivity.
      * exact IH.
Qed.

(** The signup page sends one request, to the signup endpoint, whose body is
    the form values without the password confirmation: the body has no
    [confirmPassword] field and every other field as the form has it. *)
Theorem registerSubmit_drops_confirmation (seen : value)
  (values : list (string * value)) (reply : Reply) (now rnd : Z)
  (st : Store) :
  exists body : list (string * value),
    requests (env (session (fst (registerSubmit seen values reply now rnd
                                   st))))
    = (requests (env (session st))
       ++ [{| req_method := POST; req_url := "/api/auth/register";
              req_body := VObj body;
              req_authorization := auth_header (env (session st)) |}])%list
    /\ assoc "confirmPassword" body = None
    /\ (forall k, k <> "confirmPassword" -> assoc k body = assoc k values).
Proof.
  exists (userData_of values). split; [|split].
  - unfold registerSubmit.
    destruct (truthy seen); simpl; apply requests_of_run.
  - rewrite assoc_userData_of. reflexivity.
  - intros k Hk. rewrite assoc_userData_of.
    apply String.eqb_neq in Hk. rewrite Hk. reflexivity.
Qed.

(** ** One token in three places *)

Lemma step_token_in_step (s : System) (ev : Event) :
  token_in_step s -> carries_string_token ev = true ->
  token_in_step (step s ev).
Proof.
  unfold token_in_step, has_token, agree.
  destruct s as [[tok au u ld er] [st hd rq]], ev as [op arg reply|]; simpl.
  - destruct op, reply as [data|err]; intros [Hs1 Hs2] Hev; unfold_run;
      repeat split_match; simpl in *; try discriminate;
      repeat split; auto; try congruence;
      try (intros; discriminate);
      try (apply Hs2; assumption);
      try (apply Hs1; reflexivity).
    all: try match goal with
             | H : context [match ?v with _ => _ end] |- _ =>
                 is_var v; destruct v; try discriminate H; simpl in *
             end;
      try assumption; try congruence; try (intros; congruence).
    all: try (destruct st; simpl in *; try discriminate;
              try assumption; intros; apply Hs1; reflexivity).
  - intros Hs _. unfold_run. exact Hs.
Qed.

(** From the state the module starts in, after any sequence of operations
    run one at a time whose accepted signups and logins carry a non-empty
    string token, an authenticated session has one token in three places:
    the state, the durable store and the header of outgoing requests. *)
Theorem authenticated_token_everywhere (persisted : option string)
  (evs : list Event) :
  forallb carries_string_token evs = true ->
  isAuthenticated (auth (run_all evs (startup persisted))) = true ->
  exists t : string,
    t <> ""
    /\ token (auth (run_all evs (startup persisted))) = VStr t
    /\ storage_token (env (run_all evs (startup persisted))) = Some t
    /\ auth_header (env (run_all evs (startup persisted)))
       = Some ("Bearer " ++ t).
Proof.
  intros Hevs Hauth.
  assert (Hinv : token_in_step (run_all evs (startup persisted))).
  { apply (fold_left_invariant step token_in_step carries_string_token);
      auto using step_token_in_step.
    split; simpl; [reflexivity|discriminate]. }
  destruct Hinv as [Htok Hau]. destruct (Hau Hauth) as [Hhas Hagree].
  specialize (Htok Hhas). unfold has_token, agree in *.
  destruct (storage_token (env (run_all evs (startup persisted))))
    as [t|]; simpl in *; [|discriminate].
  exists t. repeat split; auto.
  intros ->. discriminate Hhas.
Qed.

(** The application shows its loading box until the status check it
    dispatches at start-up has ended, and routes from then on, unless that
    check was answered with a body that is [null] or [undefined]. *)
Theorem startup_gate (persisted : option string) (arg : value)
  (reply : Reply) (route : Route) :
  App (auth (startup persisted)) route = LoadingBox
  /\ ((forall data, reply = Resolves data -> present data = true) ->
      App (auth (run OpCheckStatus arg reply (startup persisted))) route
      = Routed (route_element
                  (auth (run OpCheckStatus arg reply (startup persisted)))
                  route)).
Proof.
  split; [reflexivity|].
  intros Hbody. unfold App. rewrite loading_flag_of_run.
  destruct reply as [data|err]; [|reflexivity].
  rewrite (Hbody data eq_refl). rewrite andb_false_r. reflexivity.
Qed.

Lemma authenticated_token_everywhere_witness :
  exists t : string,
    token (auth (run_all [Operation OpLogin credentials welcome;
                          Operation OpRegister (VObj form_values)
                            network_down]
                   (startup None))) = VStr t
    /\ auth_header
         (env (run_all [Operation OpLogin credentials welcome;
                        Operation OpRegister (VObj form_values)
                          network_down]
                 (startup None))) = Some ("Bearer " ++ t).
Proof.
  destruct (authenticated_token_everywhere None
              [Operation OpLogin credentials welcome;
               Operation OpRegister (VObj form_values) network_down]
              eq_refl eq_refl) as (t & _ & Htok & _ & Hhd).
  exists t. split; [exact Htok|exact Hhd].
Defined.

Lemma startup_gate_witness :
  App (auth (run OpCheckStatus VUndefined network_down (startup None)))
    RouteProfile
  = Routed (Navigate "/login").
Proof.
  rewrite (proj2 (startup_gate None VUndefined network_down RouteProfile)).
  - reflexivity.
  - intros data. discriminate.
Defined.

(** ** The further theorems at concrete sessions *)

Lemma sign_in_success_witness :
  storage_token (env (run OpLogin credentials welcome (startup None)))
  = Some "eyJ0"
  /\ isAuthenticated (auth (run OpLogin credentials welcome (startup None)))
     = true.
Proof.
  assert (Hne : "eyJ0" <> "") by discriminate.
  destruct (sign_in_success OpLogin credentials welcome_fields "eyJ0"
              (startup None) (or_intror eq_refl) eq_refl Hne)
    as (Hauth & Hst & _).
  split; [exact Hst|].
  exact (f_equal isAuthenticated Hauth).
Defined.

Lemma status_check_success_witness :
  user (auth (run OpCheckStatus VUndefined (Resolves (VObj [("user", ann)]))
                (startup (Some "eyJ0"))))
  = ann.
Proof.
  assert (Hne : "eyJ0" <> "") by discriminate.
  destruct (status_check_success VUndefined (VObj [("user", ann)]) "eyJ0"
              (startup (Some "eyJ0")) eq_refl Hne eq_refl) as (Hauth & _).
  exact (f_equal user Hauth).
Defined.

Lemma token_survives_reload_witness :
  token (auth (run OpCheckStatus VUndefined
                 (Resolves (VObj [("user", ann)]))
                 (startup (storage_token
                             (env (run OpLogin credentials welcome
                                     (startup None)))))))
  = VStr "eyJ0".
Proof.
  assert (Hne : "eyJ0" <> "") by discriminate.
  destruct (token_survives_reload credentials VUndefined
              (VObj [("user", ann)]) welcome_fields "eyJ0" (startup None)
              eq_refl Hne eq_refl) as (Htok & _).
  exact Htok.
Defined.

Lemma empty_body_is_failure_witness :
  error (auth (run OpRegister (VObj form_values) (Resolves VNull)
                 (startup None)))
  = VStr "Registration failed".
Proof.
  destruct (empty_body_is_failure OpRegister (VObj form_values) VNull
              (startup None) (or_introl eq_refl) eq_refl)
    as (_ & Hauth & _).
  exact (f_equal error Hauth).
Defined.

Lemma success_without_token_witness :
  isAuthenticated
    (auth (run OpLogin credentials (Resolves (VObj [("user", ann)]))
             (startup (Some "eyJ0"))))
  = true
  /\ storage_token
       (env (run OpLogin credentials (Resolves (VObj [("user", ann)]))
               (startup (Some "eyJ0"))))
     = None.
Proof.
  destruct (success_without_token OpLogin credentials VUndefined
              [("user", ann)] welcome (startup (Some "eyJ0"))
              (or_intror eq_refl) eq_refl) as (Hau & _ & Hst & _).
  split; [exact Hau|exact Hst].
Defined.

Lemma sign_in_rejected_frame_witness :
  error (auth (run OpRegister (VObj form_values) network_down
                 (startup None)))
  = VStr "Registration failed".
Proof.
  destruct (sign_in_rejected_frame OpRegister (VObj form_values)
              (VStr "Registration failed") network_down (startup None)
              (or_introl eq_refl) eq_refl) as (Hauth & _).
  exact (f_equal error Hauth).
Defined.

Lemma at_most_one_request_witness :
  exists sent : list Request,
    requests (env (run OpCheckStatus VUndefined welcome (startup None)))
    = sent
    /\ sent = [].
Proof.
  destruct (at_most_one_request OpCheckStatus VUndefined welcome
              (startup None)) as (sent & Hreq & _ & Hnone & _).
  exists sent. split; [exact Hreq|].
  apply Hnone. split; reflexivity.
Defined.

Lemma who_sees_what_witness :
  App admin_session RouteDashboard = Routed (RenderChildren DashboardPage).
Proof.
  apply (proj1 (who_sees_what admin_session)). repeat split.
Defined.

Lemma navLinks_reach_pages_witness :
  exists route page,
    static_route "/dashboard" = Some route
    /\ App admin_session route = Routed (RenderChildren page).
Proof.
  apply (proj1 (navLinks_reach_pages admin_session) "Dashboard"
           "/dashboard" eq_refl).
  simpl. auto.
Defined.

Lemma close_new_alert_witness :
  alerts (uiDispatch 1700000000001 7
            (RemoveAlert (VStr (generateAlertId 1700000000000 42)))
            (uiDispatch 1700000000000 42 (AddAlert notice)
               (uiInitialState 1280)))
  = [].
Proof.
  destruct (close_new_alert 1700000000000 42 1700000000001 7 notice
              (uiInitialState 1280) eq_refl) as (_ & Hfresh).
  apply Hfresh. intros a [].
Defined.

Lemma removeAlert_composes_witness :
  uiDispatch 1700000000000 42 (RemoveAlert (VNum 3))
    (uiDispatch 1700000000000 42 (AddAlert notice) (uiInitialState 1280))
  = uiDispatch 1700000000000 42 (AddAlert notice) (uiInitialState 1280).
Proof.
  apply (proj2 (proj2 (removeAlert_composes 1700000000000 42 (VNum 3)
                         VNull _))).
  intros id. discriminate.
Defined.

Lemma addAlert_schedules_witness :
  autoCloseAlerts
    (uiDispatch 1700000000000 42 (AddAlert notice) (uiInitialState 1280))
  = [].
Proof.
  destruct (proj1 (addAlert_schedules 1700000000000 42 notice
                     (uiInitialState 1280)) eq_refl) as (_ & Hauto).
  exact Hauto.
Defined.

Lemma toggles_settle_witness :
  theme (uiDispatch 0 0 ToggleTheme
           (uiDispatch 0 0 ToggleTheme (uiInitialState 1280)))
  = VStr "light".
Proof.
  apply (proj2 (proj1 (proj2 (toggles_settle 0 0 (uiInitialState 1280))))).
  left. reflexivity.
Defined.

Lemma loginSubmit_congratulates_failure_witness :
  snd (loginSubmit VNull credentials wrong_password 1700000000000 42
         fresh_store)
  = Some "/profile"
  /\ error
       (auth (session (fst (loginSubmit VNull credentials wrong_password
                              1700000000000 42 fresh_store))))
     = VStr "Invalid username or password".
Proof.
  destruct (loginSubmit_congratulates_failure VNull credentials
              (VStr "Invalid username or password") wrong_password
              1700000000000 42 fresh_store eq_refl eq_refl eq_refl)
    as (Hnav & _ & Herr & _).
  split; [exact Hnav|exact Herr].
Defined.

Lemma loginSubmit_silent_success_witness :
  snd (loginSubmit (VStr "Invalid username or password") credentials welcome
         1700000000000 42 fresh_store)
  = None.
Proof.
  assert (Hne : "eyJ0" <> "") by discriminate.
  destruct (loginSubmit_silent_success
              (VStr "Invalid username or password") credentials
              welcome_fields "eyJ0" 1700000000000 42 fresh_store
              eq_refl eq_refl Hne) as (Hnav & _).
  exact Hnav.
Defined.

Lemma registerSubmit_drops_confirmation_witness :
  exists body : list (string * value),
    assoc "confirmPassword" body = None
    /\ assoc "username" body = Some (VStr "ann").
Proof.
  destruct (registerSubmit_drops_confirmation VNull form_values welcome
              1700000000000 42 fresh_store) as (body & _ & Hno & Hrest).
  exists body. split; [exact Hno|].
  rewrite Hrest by discriminate. reflexivity.
Defined.

Lemma loading_ends_witness :
  isLoading (auth (run OpCheckStatus VUndefined (Resolves VNull)
                     (startup (Some "eyJ0"))))
  = true.
Proof.
  apply (proj2 (loading_ends OpCheckStatus VUndefined (Resolves VNull)
                  (startup (Some "eyJ0")))).
  split; [reflexivity|]. split; [reflexivity|].
  exists VNull. split; reflexivity.
Defined.
